(** * layabauth.flask: the authentication decorator and the user-id logging filter

    A shallow embedding of [layabauth/flask.py].  Python values are an
    inductive type of JSON-like values, dictionaries are finite maps,
    exceptions are an inductive type, and the code runs in a small monad
    that threads the ambient Flask state, may raise, and records every call
    that leaves the module (to a collaborator of [layabauth._http], to
    [jose.jws], to [json] or to the decorated handler). *)

From stdpp Require Import gmap strings list fin_maps.

Set Default Proof Using "Type".
#[local] Set Warnings "-register-all".

(** ** Python values *)

(** What [json.loads] can return, which is also what a claims mapping holds. *)
Inductive value : Type :=
| VNone
| VBool (b : bool)
| VInt (z : Z)
| VStr (s : string)
| VList (l : list value)
| VDict (d : gmap string value).

(** Python truth value testing: [None], [False], [0], [""], [[]] and [{}] are
    false, everything else is true. *)
Definition truthy (v : value) : bool :=
  match v with
  | VNone => false
  | VBool b => b
  | VInt z => negb (Z.eqb z 0)
  | VStr s => negb (String.eqb s "")
  | VList l => match l with [] => false | _ :: _ => true end
  | VDict d => negb (bool_decide (d = ∅))
  end.

(** The result of [_get_token] is [None] or a [str]; [not token] holds for
    [None] and for the empty string. *)
Definition truthy_token (t : option string) : bool :=
  match t with
  | None => false
  | Some s => negb (String.eqb s "")
  end.

(** ** Exceptions *)

(** An instance of [jose.exceptions.JOSEError] or of one of its subclasses
    ([JWSError], [JWTError], [ExpiredSignatureError], ...). *)
Record jose_error : Type := {
  jose_class : string;
  jose_message : string
}.

(** [str(e)] of an exception built from one message argument. *)
Definition str (e : jose_error) : string := jose_message e.

Inductive exn : Type :=
| JOSEError (e : jose_error)
  (** [werkzeug.exceptions.Unauthorized]; [description = None] keeps the
      class default, [cause] is the [__cause__] set by [raise ... from e]. *)
| Unauthorized (description : option string) (cause : option jose_error)
| RuntimeError (msg : string)
| AttributeError (msg : string)
  (** [json.JSONDecodeError] is a [ValueError]. *)
| ValueError (msg : string)
  (** Any exception whose class is none of the above. *)
| Exception (cls msg : string).

Inductive result (A : Type) : Type :=
| Ok (a : A)
| Raise (e : exn).
Arguments Ok {A} a.
Arguments Raise {A} e.

Definition is_unauthorized {A : Type} (r : result A) : bool :=
  match r with
  | Raise (Unauthorized _ _) => true
  | _ => false
  end.

(** ** The ambient Flask state *)

(** [flask.request.headers], an ordered multi-map of header lines. *)
Definition Headers : Type := list (string * string).

(** [flask.g]: the two attributes this module uses.  The outer [None] is an
    attribute that was never assigned. *)
Record G : Type := {
  g_token : option (option string);
  g_token_body : option value
}.

Record RequestContext : Type := {
  request_headers : Headers;
  g : G
}.

(** [logging.LogRecord], with the attribute the filter adds. *)
Record LogRecord : Type := {
  rec_name : string;
  rec_levelno : Z;
  rec_msg : string;
  rec_user_id : option value
}.

Definition set_user_id (record : LogRecord) (v : value) : LogRecord :=
  {| rec_name := rec_name record;
     rec_levelno := rec_levelno record;
     rec_msg := rec_msg record;
     rec_user_id := Some v |}.

(** [UserIdFilter.__init__] stores [token_field_name]; [name] goes to
    [logging.Filter]. *)
Record UserIdFilter : Type := {
  token_field_name : string;
  name : string
}.

Section Model.

(** [Ext] is everything outside the process that a collaborator can read
    or change (the JWKS endpoint, the clock).  [Args], [Kwargs] and [R]
    are the positional arguments, the keyword arguments and the return
    value of a decorated handler. *)
Context {Ext Args Kwargs R : Type}.

Record State : Type := {
  request_ctx : option RequestContext;
  ext : Ext
}.

(** A call that leaves the module. *)
Inductive event : Type :=
| EGetToken (headers : Headers)
| EKeys (jwks_uri : string)
| EValidate (token : option string) (key : value)
| EUnverifiedClaims (token : option string)
| EJsonLoads (payload : string)
| ECall (func_args : Args) (func_kwargs : Kwargs).

(** The functions imported at the top of [flask.py]. *)
Class Collaborators : Type := {
  _get_token : Headers -> result (option string);
  keys : string -> Ext -> result value * Ext;
  validate : option string -> value -> Ext -> result value;
  get_unverified_claims : option string -> result string;
  json_loads : string -> result value
}.

(** A handler sees and may change the Flask state and the outside. *)
Definition Handler : Type := Args -> Kwargs -> State -> result R * State.

(** ** The monad *)

Definition M (A : Type) : Type := State -> result A * State * list event.

Definition ret {A : Type} (a : A) : M A := fun s => (Ok a, s, []).

Definition bind {A B : Type} (m : M A) (k : A -> M B) : M B :=
  fun s =>
    match m s with
    | (Ok a, s1, t1) =>
        match k a s1 with
        | (r, s2, t2) => (r, s2, t1 ++ t2)
        end
    | (Raise e, s1, t1) => (Raise e, s1, t1)
    end.

Definition raise {A : Type} (e : exn) : M A := fun s => (Raise e, s, []).

(** [try: body except exceptions.JOSEError as e: handler(e)] *)
Definition try_except_JOSEError {A : Type}
    (body : M A) (handler : jose_error -> M A) : M A :=
  fun s =>
    match body s with
    | (Raise (JOSEError e), s1, t1) =>
        match handler e s1 with
        | (r, s2, t2) => (r, s2, t1 ++ t2)
        end
    | other => other
    end.

End Model.

Arguments State : clear implicits.
Arguments event : clear implicits.
Arguments Collaborators : clear implicits.
Arguments Handler : clear implicits.
Arguments M : clear implicits.

Declare Scope py_scope.
Delimit Scope py_scope with py.
Notation "x <- m ;; k" := (bind m (fun x => k))
  (at level 100, m at next level, right associativity) : py_scope.
Notation "m ;;; k" := (bind m (fun _ => k))
  (at level 100, right associativity) : py_scope.

(** ** The module *)

Section Flask.

Context {Ext Args Kwargs R : Type}.
Context {collaborators : Collaborators Ext}.

#[local] Abbreviation M := (M Ext Args Kwargs).
#[local] Abbreviation State := (State Ext).
#[local] Abbreviation Handler := (Handler Ext Args Kwargs R).

Local Open Scope py_scope.

(** *** Primitives *)

Definition emit (ev : event Args Kwargs) : M unit :=
  fun s => (Ok tt, s, [ev]).

Definition lift {A : Type} (r : result A) : M A :=
  fun s => (r, s, []).

(** [flask.has_request_context()] *)
Definition has_request_context : M bool :=
  fun s =>
    (Ok (match request_ctx s with Some _ => true | None => false end), s, []).

(** Resolving the proxies [flask.request] and [flask.g] outside of a
    request raises [RuntimeError]. *)
Definition current_ctx : M RequestContext :=
  fun s =>
    match request_ctx s with
    | Some rc => (Ok rc, s, [])
    | None => (Raise (RuntimeError "Working outside of request context."), s, [])
    end.

Definition update_g (f : G -> G) : M unit :=
  rc <- current_ctx ;;
  fun s =>
    (Ok tt,
     {| request_ctx := Some {| request_headers := request_headers rc;
                               g := f (g rc) |};
        ext := ext s |},
     []).

(** [flask.request.headers] *)
Definition flask_request_headers : M Headers :=
  rc <- current_ctx ;; ret (request_headers rc).

(** [flask.g.token = t] *)
Definition set_g_token (t : option string) : M unit :=
  update_g (fun g0 => {| g_token := Some t; g_token_body := g_token_body g0 |}).

(** [flask.g.token] *)
Definition get_g_token : M (option string) :=
  rc <- current_ctx ;;
  match g_token (g rc) with
  | Some t => ret t
  | None => raise (AttributeError "token")
  end.

(** [flask.g.token_body = body] *)
Definition set_g_token_body (body : value) : M unit :=
  update_g (fun g0 => {| g_token := g_token g0; g_token_body := Some body |}).

(** [flask.g.token_body] *)
Definition get_g_token_body : M value :=
  rc <- current_ctx ;;
  match g_token_body (g rc) with
  | Some body => ret body
  | None => raise (AttributeError "token_body")
  end.

(** [getattr(flask.g, "token_body", None)] *)
Definition getattr_g_token_body : M value :=
  rc <- current_ctx ;;
  ret (default VNone (g_token_body (g rc))).

(** *** Calls that leave the module *)

Definition call_get_token (headers : Headers) : M (option string) :=
  emit (EGetToken headers) ;;; lift (_get_token headers).

Definition call_keys (jwks_uri : string) : M value :=
  emit (EKeys jwks_uri) ;;;
  fun s =>
    match keys jwks_uri (ext s) with
    | (r, ext') => (r, {| request_ctx := request_ctx s; ext := ext' |}, [])
    end.

Definition call_validate (token : option string) (key : value) : M value :=
  emit (EValidate token key) ;;;
  fun s => (validate token key (ext s), s, []).

Definition call_get_unverified_claims (token : option string) : M string :=
  emit (EUnverifiedClaims token) ;;; lift (get_unverified_claims token).

Definition call_json_loads (payload : string) : M value :=
  emit (EJsonLoads payload) ;;; lift (json_loads payload).

Definition call_func (func : Handler) (func_args : Args) (func_kwargs : Kwargs) : M R :=
  emit (ECall func_args func_kwargs) ;;;
  fun s =>
    match func func_args func_kwargs s with
    | (r, s') => (r, s', [])
    end.

(** [v.get(key, dflt)]: a method of [dict] only. *)
Definition dict_get (v : value) (key : string) (dflt : value) : M value :=
  match v with
  | VDict d => ret (default dflt (d !! key))
  | _ => raise (AttributeError "get")
  end.

(** *** requires_authentication *)

(** [requires_authentication(jwks_uri)(func)], applied to the arguments of
    a request. *)
Definition wrapper (jwks_uri : string) (func : Handler)
    (func_args : Args) (func_kwargs : Kwargs) : M R :=
  try_except_JOSEError
    (headers <- flask_request_headers ;;
     t <- call_get_token headers ;;
     set_g_token t ;;;
     t1 <- get_g_token ;;
     (if negb (truthy_token t1)
      then raise (Unauthorized None None)
      else ret tt) ;;;
     key <- call_keys jwks_uri ;;
     t2 <- get_g_token ;;
     body <- call_validate t2 key ;;
     set_g_token_body body)
    (fun e => raise (Unauthorized (Some (str e)) (Some e))) ;;;
  call_func func func_args func_kwargs.

(** [requires_authentication(jwks_uri)] is the decorator, and the
    decorator maps [func] to its wrapper. *)
Definition requires_authentication (jwks_uri : string) (func : Handler)
    : Args -> Kwargs -> M R :=
  wrapper jwks_uri func.

(** *** _extract_token_body *)

Definition _extract_token_body : M value :=
  cached <- getattr_g_token_body ;;
  if truthy cached then get_g_token_body
  else
    headers <- flask_request_headers ;;
    token <- call_get_token headers ;;
    if negb (truthy_token token) then ret (VDict ∅)
    else
      try_except_JOSEError
        (payload <- call_get_unverified_claims token ;;
         call_json_loads payload)
        (fun _ => ret (VDict ∅)).

(** *** UserIdFilter.filter *)

(** The record is changed in place by the source; here the changed record
    is returned next to the filter's verdict. *)
Definition UserIdFilter_filter (self : UserIdFilter) (record : LogRecord)
    : M (bool * LogRecord) :=
  in_request <- has_request_context ;;
  user_id <- (if in_request : bool
              then (body <- _extract_token_body ;;
                    dict_get body (token_field_name self) (VStr ""))
              else ret (VStr "")) ;;
  ret (true, set_user_id record user_id).

End Flask.

(** What the [except] clause makes of an exception that leaves the [try]
    block: a JOSE error becomes [Unauthorized], anything else passes. *)
Definition mapped_by_except (e : exn) : exn :=
  match e with
  | JOSEError je => Unauthorized (Some (str je)) (Some je)
  | other => other
  end.

(** ** Reading a run *)

Section Runs.

Context {Ext Args Kwargs : Type}.

Definition outcome {A : Type} (run : result A * State Ext * list (event Args Kwargs))
    : result A := run.1.1.

Definition final_state {A : Type} (run : result A * State Ext * list (event Args Kwargs))
    : State Ext := run.1.2.

Definition calls {A : Type} (run : result A * State Ext * list (event Args Kwargs))
    : list (event Args Kwargs) := run.2.

(** The state of a request whose [flask.g] was replaced. *)
Definition with_g (rc : RequestContext) (g' : G) (ext' : Ext) : State Ext :=
  {| request_ctx := Some {| request_headers := request_headers rc; g := g' |};
     ext := ext' |}.

(** The handler invocations of a trace, in order. *)
Fixpoint handler_calls (t : list (event Args Kwargs)) : list (Args * Kwargs) :=
  match t with
  | [] => []
  | ECall a k :: t' => (a, k) :: handler_calls t'
  | _ :: t' => handler_calls t'
  end.

(** The unverified decodes of a trace: calls to
    [jws.get_unverified_claims] and to [json.loads]. *)
Fixpoint unverified_decodes (t : list (event Args Kwargs)) : nat :=
  match t with
  | [] => 0
  | EUnverifiedClaims _ :: t' => S (unverified_decodes t')
  | EJsonLoads _ :: t' => S (unverified_decodes t')
  | _ :: t' => unverified_decodes t'
  end.

(** The [user_id] attribute a run of the filter left on its record. *)
Definition assigned_user_id (r : result (bool * LogRecord)) : result (option value) :=
  match r with
  | Ok (_, record) => Ok (rec_user_id record)
  | Raise e => Raise e
  end.

End Runs.

(** ** A concrete deployment

    The collaborators behind the imports are not part of [flask.py]; the
    general statements below quantify over all of them.  This instance is
    used to run the code on concrete requests. *)

Definition sample_args : Type := list value.
Definition sample_kwargs : Type := gmap string value.

(** The outside: how many times the JWKS endpoint was fetched. *)
Definition sample_ext : Type := nat.

Fixpoint headers_get (name : string) (headers : Headers) : option string :=
  match headers with
  | [] => None
  | (k, v) :: rest => if String.eqb k name then Some v else headers_get name rest
  end.

(** Modelled from the spec: [layabauth._http._get_token] is not among the
    sources.  The header contract is a bearer-style authorization header:
    the token is what follows the scheme, and there is none when the header
    is missing or has another scheme. *)
Definition sample_get_token (headers : Headers) : result (option string) :=
  match headers_get "Authorization" headers with
  | Some v =>
      if String.prefix "Bearer " v
      then Ok (Some (String.substring 7 (String.length v - 7) v))
      else Ok None
  | None => Ok None
  end.

Definition quote : string := String (Ascii.ascii_of_nat 34) EmptyString.

(** Three compact serialisations.  The header segment [e30] is the base64url
    of the empty JSON object; the signature segment is [c2ln].
    - [token_user42]: payload [{"sub":"user-42"}];
    - [token_not_json]: payload [eA], the single byte [x], which is no JSON
      document;
    - [token_empty_claims]: payload [e30], the empty JSON object. *)
Definition token_user42 : string := "e30.eyJzdWIiOiJ1c2VyLTQyIn0.c2ln".
Definition token_not_json : string := "e30.eA.c2ln".
Definition token_empty_claims : string := "e30.e30.c2ln".
(** A serialisation of the claims of [token_user42] whose signature segment
    does not verify. *)
Definition token_forged : string := "e30.eyJzdWIiOiJ1c2VyLTQyIn0.Zm9yZ2Vk".

Definition payload_user42 : string :=
  "{" +:+ quote +:+ "sub" +:+ quote +:+ ":" +:+ quote +:+ "user-42" +:+ quote +:+ "}".

Definition claims_user42 : gmap string value := {[ "sub" := VStr "user-42" ]}.

Definition sample_jwks_uri : string := "https://idp.example/discovery/keys".
Definition unreachable_jwks_uri : string := "https://down.example/discovery/keys".
Definition malformed_jwks_uri : string := "https://idp.example/discovery/broken".

Definition sample_jwks : value :=
  VDict {[ "keys" := VList [VDict {[ "kid" := VStr "k1"; "kty" := VStr "RSA" ]}] ]}.

(** Modelled from the spec: [layabauth._http.keys] is not among the sources.
    It retrieves the key set published at the URI, and a retrieval that
    fails is an authentication failure: it raises a JOSE error.  This
    endpoint table has one URI that answers, one whose document is no key
    set, and every other host cannot be reached. *)
Definition sample_keys (jwks_uri : string) (fetched : sample_ext)
    : result value * sample_ext :=
  if String.eqb jwks_uri sample_jwks_uri then (Ok sample_jwks, S fetched)
  else if String.eqb jwks_uri malformed_jwks_uri
  then (Raise (JOSEError {| jose_class := "JWKError";
                            jose_message := "Unable to find an algorithm for key" |}),
        S fetched)
  else (Raise (JOSEError {| jose_class := "JOSEError";
                            jose_message := "ConnectionError error while retrieving keys" |}),
        S fetched).

(** Modelled from the spec: [layabauth._http.validate] is not among the
    sources.  Given a token and a key it returns the decoded claims or
    raises a cryptography or claims error. *)
Definition sample_validate (token : option string) (key : value) (_ : sample_ext)
    : result value :=
  match token with
  | Some t =>
      if String.eqb t token_user42 then Ok (VDict claims_user42)
      else if String.eqb t token_empty_claims then Ok (VDict ∅)
      else Raise (JOSEError {| jose_class := "JWTError";
                               jose_message := "Signature verification failed." |})
  | None => Raise (JOSEError {| jose_class := "JWTError";
                                jose_message := "Error decoding token headers." |})
  end.

(** [jose.jws.get_unverified_claims] splits the serialisation and returns the
    decoded bytes of its payload segment, without parsing them; a token that
    does not split raises [JWSError]. *)
Definition sample_get_unverified_claims (token : option string) : result string :=
  match token with
  | Some t =>
      if String.eqb t token_user42 then Ok payload_user42
      else if String.eqb t token_forged then Ok payload_user42
      else if String.eqb t token_not_json then Ok "x"
      else if String.eqb t token_empty_claims then Ok "{}"
      else Raise (JOSEError {| jose_class := "JWSError";
                               jose_message := "Not enough segments" |})
  | None => Raise (JOSEError {| jose_class := "JWSError";
                                jose_message := "Not enough segments" |})
  end.

(** [json.loads] on the payloads above; [json.JSONDecodeError] is a
    [ValueError]. *)
Definition sample_json_loads (payload : string) : result value :=
  if String.eqb payload payload_user42 then Ok (VDict claims_user42)
  else if String.eqb payload "{}" then Ok (VDict ∅)
  else Raise (ValueError "Expecting value: line 1 column 1 (char 0)").

Definition sample_collaborators : Collaborators sample_ext := {|
  _get_token := sample_get_token;
  keys := sample_keys;
  validate := sample_validate;
  get_unverified_claims := sample_get_unverified_claims;
  json_loads := sample_json_loads
|}.

(** A handler that answers with the claims the decorator stored. *)
Definition sample_handler : Handler sample_ext sample_args sample_kwargs value :=
  fun _ _ s =>
    match request_ctx s with
    | Some rc => (Ok (default VNone (g_token_body (g rc))), s)
    | None => (Raise (RuntimeError "Working outside of request context."), s)
    end.

Definition empty_g : G := {| g_token := None; g_token_body := None |}.

Definition bearer (token : string) : Headers :=
  [("Host", "api.example"); ("Authorization", "Bearer " +:+ token)].

(** A request that just arrived: fresh [flask.g]. *)
Definition request_with (headers : Headers) : State sample_ext :=
  {| request_ctx := Some {| request_headers := headers; g := empty_g |};
     ext := 0 |}.

Definition no_request : State sample_ext :=
  {| request_ctx := None; ext := 0 |}.

Definition sample_record : LogRecord :=
  {| rec_name := "werkzeug"; rec_levelno := 20; rec_msg := "GET /"; rec_user_id := None |}.

Definition sub_filter : UserIdFilter :=
  {| token_field_name := "sub"; name := EmptyString |}.

Definition sample_wrapper jwks_uri :=
  wrapper (collaborators := sample_collaborators) jwks_uri sample_handler.

Definition sample_filter :=
  UserIdFilter_filter (Args := sample_args) (Kwargs := sample_kwargs)
    (collaborators := sample_collaborators).

(** The state the decorator leaves behind once it accepted a token. *)
Definition authenticated_request (token : string) : State sample_ext :=
  final_state (sample_wrapper sample_jwks_uri [] ∅ (request_with (bearer token))).

(** ** Further deployments

    The same deployment with one collaborator changed, to run the code where
    that collaborator behaves otherwise. *)

(** [token_list_claims]: payload [W10], the empty JSON array. *)
Definition token_list_claims : string := "e30.W10.c2ln".

(** [jose.jws.get_unverified_claims] and [json.loads] on one more token:
    the payload of [token_list_claims] is a JSON document, but no object. *)
Definition array_get_unverified_claims (token : option string) : result string :=
  match token with
  | Some t =>
      if String.eqb t token_list_claims then Ok "[]"
      else sample_get_unverified_claims token
  | None => sample_get_unverified_claims token
  end.

Definition array_json_loads (payload : string) : result value :=
  if String.eqb payload "[]" then Ok (VList []) else sample_json_loads payload.

Definition array_collaborators : Collaborators sample_ext := {|
  _get_token := sample_get_token;
  keys := sample_keys;
  validate := sample_validate;
  get_unverified_claims := array_get_unverified_claims;
  json_loads := array_json_loads
|}.

(** A deployment whose token extraction fails with [e] on every header set. *)
Definition refusing_collaborators (e : exn) : Collaborators sample_ext := {|
  _get_token := fun _ => Raise e;
  keys := sample_keys;
  validate := sample_validate;
  get_unverified_claims := sample_get_unverified_claims;
  json_loads := sample_json_loads
|}.

(** A deployment whose key retrieval fails with [e] on every URI. *)
Definition failing_keys_collaborators (e : exn) : Collaborators sample_ext := {|
  _get_token := sample_get_token;
  keys := fun _ fetched => (Raise e, S fetched);
  validate := sample_validate;
  get_unverified_claims := sample_get_unverified_claims;
  json_loads := sample_json_loads
|}.

(** A deployment whose validation fails with [e] on every token. *)
Definition crashing_collaborators (e : exn) : Collaborators sample_ext := {|
  _get_token := sample_get_token;
  keys := sample_keys;
  validate := fun _ _ _ => Raise e;
  get_unverified_claims := sample_get_unverified_claims;
  json_loads := sample_json_loads
|}.

(** ** setup.py

    The module builds the dictionary of optional requirements and then adds
    the requirements of every other group to the group [testing].  A [dict]
    keeps its keys in insertion order, and the order decides the order of
    the added requirements, so the dictionary is a list of items. *)

Definition extra_requirements : list (string * list string) :=
  [("testing", ["pycommon-test==4.9.0"]);
   ("authentication", ["oauth2helper==1.4.0"]);
   ("windows", ["pysmb==1.1.27"]);
   ("celery", ["redis==2.10.6"; "celery[redis]==4.2.1"]);
   ("rest", ["requests==2.21.0"])].

(** [d[key]] *)
Fixpoint dict_getitem (key : string) (d : list (string * list string))
    : option (list string) :=
  match d with
  | [] => None
  | (k, v) :: rest => if String.eqb k key then Some v else dict_getitem key rest
  end.

(** [d[key] = v] for a key that is present. *)
Fixpoint dict_setitem (key : string) (v : list string) (d : list (string * list string))
    : list (string * list string) :=
  match d with
  | [] => []
  | (k, v0) :: rest =>
      if String.eqb k key then (k, v) :: rest else (k, v0) :: dict_setitem key v rest
  end.

(** [[extra for extra_name, extra_list in d.items()
      if extra_name != 'testing' for extra in extra_list]] *)
Fixpoint extras_of_other_groups (items : list (string * list string)) : list string :=
  match items with
  | [] => []
  | (extra_name, extra_list) :: rest =>
      (if negb (String.eqb extra_name "testing") then extra_list else [])
      ++ extras_of_other_groups rest
  end.

(** [d['testing'] += [...]]: the left side is looked up first (a missing
    key raises [KeyError]), the comprehension is built, and the list is
    extended with it. *)
Definition add_all_extras_to_testing (d : list (string * list string))
    : result (list (string * list string)) :=
  match dict_getitem "testing" d with
  | None => Raise (Exception "KeyError" "testing")
  | Some testing =>
      Ok (dict_setitem "testing" (testing ++ extras_of_other_groups d) d)
  end.

(** * Properties *)

Section Properties.

Context {Ext Args Kwargs R : Type}.
Context {collaborators : Collaborators Ext}.

#[local] Abbreviation M := (M Ext Args Kwargs).
#[local] Abbreviation State := (State Ext).
#[local] Abbreviation Handler := (Handler Ext Args Kwargs R).

Implicit Types (s : State) (rc : RequestContext) (func : Handler).
Implicit Types (func_args : Args) (func_kwargs : Kwargs).
Implicit Types (jwks_uri : string) (t : option string) (tok : string).

Lemma truthy_token_Some tok : tok <> EmptyString -> truthy_token (Some tok) = true.
Proof.
  intros Hne. cbn. apply negb_true_iff. by apply String.eqb_neq.
Qed.

Lemma truthy_token_false t :
  truthy_token t = false <-> t = None \/ t = Some EmptyString.
Proof.
  destruct t as [tok|]; cbn.
  - rewrite negb_false_iff, String.eqb_eq. split.
    + intros ->. by right.
    + intros [Hn|Hs]; [discriminate|congruence].
  - split; [by left|done].
Qed.

(** Runs the module's code down to the calls of the collaborators, whose
    results the proofs then supply one at a time. *)
Ltac run_py :=
  unfold wrapper, requires_authentication, UserIdFilter_filter, _extract_token_body,
    try_except_JOSEError, flask_request_headers, call_get_token,
    set_g_token, get_g_token, set_g_token_body, get_g_token_body,
    getattr_g_token_body, update_g, call_keys, call_validate,
    call_get_unverified_claims, call_json_loads, call_func, dict_get,
    has_request_context, current_ctx, emit, lift, bind, ret, raise,
    outcome, final_state, calls, with_g;
  cbn.

(** C1: a valid token.  The handler runs exactly once, on the caller's
    arguments, in a state where [flask.g.token] is the extracted token
    and [flask.g.token_body] is what [validate] returned. *)
Theorem wrapper_valid_token jwks_uri func func_args func_kwargs s rc tok key ext' claims :
  request_ctx s = Some rc ->
  _get_token (request_headers rc) = Ok (Some tok) ->
  tok <> EmptyString ->
  keys jwks_uri (ext s) = (Ok key, ext') ->
  validate (Some tok) key ext' = Ok claims ->
  let authenticated :=
    with_g rc {| g_token := Some (Some tok); g_token_body := Some claims |} ext' in
  let run := wrapper jwks_uri func func_args func_kwargs s in
  run = ((func func_args func_kwargs authenticated).1,
         (func func_args func_kwargs authenticated).2,
         [EGetToken (request_headers rc); EKeys jwks_uri;
          EValidate (Some tok) key; ECall func_args func_kwargs])
  /\ handler_calls (calls run) = [(func_args, func_kwargs)].
Proof.
  intros Hctx Htok Hne Hkeys Hval authenticated run.
  assert (Hrun : run = ((func func_args func_kwargs authenticated).1,
                        (func func_args func_kwargs authenticated).2,
                        [EGetToken (request_headers rc); EKeys jwks_uri;
                         EValidate (Some tok) key; ECall func_args func_kwargs])).
  { subst run authenticated. destruct s as [c e]; cbn in Hctx, Hkeys; subst c.
    apply String.eqb_neq in Hne.
    run_py. rewrite Htok; cbn. rewrite Hne; cbn.
    rewrite Hkeys; cbn. rewrite Hval; cbn.
    by destruct (func _ _ _). }
  split; [done|]. by rewrite Hrun.
Qed.

(** C2: no token.  When [_get_token] returns [None] or the empty string the
    wrapper raises [Unauthorized()] and the handler is not called; the key
    set is not fetched either. *)
Theorem wrapper_no_token jwks_uri func func_args func_kwargs s rc t :
  request_ctx s = Some rc ->
  _get_token (request_headers rc) = Ok t ->
  t = None \/ t = Some EmptyString ->
  let run := wrapper jwks_uri func func_args func_kwargs s in
  run = (Raise (Unauthorized None None),
         with_g rc {| g_token := Some t; g_token_body := g_token_body (g rc) |} (ext s),
         [EGetToken (request_headers rc)])
  /\ handler_calls (calls run) = [].
Proof.
  intros Hctx Htok Hfalsy run.
  assert (Hrun : run = (Raise (Unauthorized None None),
                        with_g rc {| g_token := Some t;
                                     g_token_body := g_token_body (g rc) |} (ext s),
                        [EGetToken (request_headers rc)])).
  { subst run. destruct s as [c e]; cbn in Hctx; subst c.
    apply truthy_token_false in Hfalsy.
    run_py. rewrite Htok; cbn. by rewrite Hfalsy. }
  split; [done|]. by rewrite Hrun.
Qed.

(** C3: a token that [validate] rejects with a JOSE error.  The wrapper
    raises [Unauthorized] whose description is [str] of that error, and the
    handler is not called. *)
Theorem wrapper_rejected_token jwks_uri func func_args func_kwargs s rc tok key ext' e :
  request_ctx s = Some rc ->
  _get_token (request_headers rc) = Ok (Some tok) ->
  tok <> EmptyString ->
  keys jwks_uri (ext s) = (Ok key, ext') ->
  validate (Some tok) key ext' = Raise (JOSEError e) ->
  let run := wrapper jwks_uri func func_args func_kwargs s in
  run = (Raise (Unauthorized (Some (str e)) (Some e)),
         with_g rc {| g_token := Some (Some tok);
                      g_token_body := g_token_body (g rc) |} ext',
         [EGetToken (request_headers rc); EKeys jwks_uri; EValidate (Some tok) key])
  /\ handler_calls (calls run) = [].
Proof.
  intros Hctx Htok Hne Hkeys Hval run.
  assert (Hrun : run = (Raise (Unauthorized (Some (str e)) (Some e)),
                        with_g rc {| g_token := Some (Some tok);
                                     g_token_body := g_token_body (g rc) |} ext',
                        [EGetToken (request_headers rc); EKeys jwks_uri;
                         EValidate (Some tok) key])).
  { subst run. destruct s as [c x]; cbn in Hctx, Hkeys; subst c.
    apply String.eqb_neq in Hne.
    run_py. rewrite Htok; cbn. rewrite Hne; cbn.
    rewrite Hkeys; cbn. by rewrite Hval. }
  split; [done|]. by rewrite Hrun.
Qed.

(** C4, as the code has it: when [keys] fails the handler is not called and
    [validate] is not reached.  A failure of class [JOSEError] is raised as
    [Unauthorized] with [str] of the failure as description; a failure of
    any other class leaves the wrapper as it is. *)
Theorem wrapper_keys_failure jwks_uri func func_args func_kwargs s rc tok ext' e :
  request_ctx s = Some rc ->
  _get_token (request_headers rc) = Ok (Some tok) ->
  tok <> EmptyString ->
  keys jwks_uri (ext s) = (Raise e, ext') ->
  let run := wrapper jwks_uri func func_args func_kwargs s in
  run = (Raise (mapped_by_except e),
         with_g rc {| g_token := Some (Some tok);
                      g_token_body := g_token_body (g rc) |} ext',
         [EGetToken (request_headers rc); EKeys jwks_uri])
  /\ handler_calls (calls run) = []
  /\ (forall je, e = JOSEError je ->
       outcome run = Raise (Unauthorized (Some (str je)) (Some je)))
  /\ ((forall je, e <> JOSEError je) -> outcome run = Raise e).
Proof.
  intros Hctx Htok Hne Hkeys run.
  assert (Hrun : run = (Raise (mapped_by_except e),
                        with_g rc {| g_token := Some (Some tok);
                                     g_token_body := g_token_body (g rc) |} ext',
                        [EGetToken (request_headers rc); EKeys jwks_uri])).
  { subst run. destruct s as [c x]; cbn in Hctx, Hkeys; subst c.
    apply String.eqb_neq in Hne.
    run_py. rewrite Htok; cbn. rewrite Hne; cbn.
    rewrite Hkeys; cbn. by destruct e. }
  rewrite Hrun. repeat split; cbn.
  - by intros je ->.
  - intros Hother. destruct e as [je| | | | |]; try done. by destruct (Hother je).
Qed.

(** C10: rejection is not atomic.  Whenever [_get_token] returned and the
    wrapper raises [Unauthorized] without having called the handler,
    [flask.g.token] holds what [_get_token] returned and
    [flask.g.token_body] is as it was before the call: unset, on a request
    that had not set it. *)
Theorem wrapper_rejection_keeps_token jwks_uri func func_args func_kwargs s rc t :
  request_ctx s = Some rc ->
  _get_token (request_headers rc) = Ok t ->
  let run := wrapper jwks_uri func func_args func_kwargs s in
  is_unauthorized (outcome run) = true ->
  handler_calls (calls run) = [] ->
  exists ext',
    final_state run =
      with_g rc {| g_token := Some t; g_token_body := g_token_body (g rc) |} ext'
    /\ (g_token_body (g rc) = None ->
        forall rc', request_ctx (final_state run) = Some rc' ->
                    g_token (g rc') = Some t /\ g_token_body (g rc') = None).
Proof.
  intros Hctx Htok run Hunauth Hnocall.
  assert (Hfinal : exists ext', final_state run =
            with_g rc {| g_token := Some t; g_token_body := g_token_body (g rc) |} ext').
  { subst run. destruct s as [c x]; cbn in Hctx; subst c.
    revert Hunauth Hnocall. run_py. rewrite Htok; cbn.
    destruct (truthy_token t); cbn; [|by eauto].
    destruct (keys jwks_uri x) as [[key|e] x'] eqn:Hkeys; cbn.
    - destruct (validate t key x') as [claims|e] eqn:Hval; cbn.
      + destruct (func _ _ _); cbn. discriminate.
      + destruct e; cbn; eauto.
    - destruct e; cbn; eauto. }
  destruct Hfinal as [ext' Hfinal]. exists ext'. split; [done|].
  intros Hunset rc'. rewrite Hfinal. cbn. intros [= <-]. by cbn.
Qed.

(** The assignment [record.user_id = v] writes that attribute and no
    other. *)
Lemma set_user_id_fields (record : LogRecord) (v : value) :
  rec_user_id (set_user_id record v) = Some v
  /\ rec_name (set_user_id record v) = rec_name record
  /\ rec_levelno (set_user_id record v) = rec_levelno record
  /\ rec_msg (set_user_id record v) = rec_msg record.
Proof. by destruct record. Qed.

(** C6, as the code has it.  When [flask.g.token_body] holds a claims
    mapping that is not empty, the filter keeps the record, its [user_id]
    is the stored mapping's value at the configured field (the empty
    string when the field is missing), and no call is made at all, so no
    unverified decode.  When the stored mapping is empty, the filter does
    what it does on the same request with [flask.g.token_body] unset. *)
Theorem filter_reuses_stored_claims (self : UserIdFilter) (record : LogRecord) s rc
    (d : gmap string value) :
  request_ctx s = Some rc ->
  g_token_body (g rc) = Some (VDict d) ->
  let run := UserIdFilter_filter (Args := Args) (Kwargs := Kwargs) self record s in
  let unset :=
    with_g rc {| g_token := g_token (g rc); g_token_body := None |} (ext s) in
  let run_unset :=
    UserIdFilter_filter (Args := Args) (Kwargs := Kwargs) self record unset in
  (d <> ∅ ->
   exists record',
     run = (Ok (true, record'), s, [])
     /\ rec_user_id record'
        = Some (match d !! token_field_name self with
                | Some v => v
                | None => VStr EmptyString
                end)
     /\ rec_name record' = rec_name record
     /\ rec_levelno record' = rec_levelno record
     /\ rec_msg record' = rec_msg record
     /\ unverified_decodes (calls run) = 0)
  /\ (d = ∅ ->
      outcome run = outcome run_unset
      /\ calls run = calls run_unset
      /\ final_state run = s
      /\ final_state run_unset = unset).
Proof.
  intros Hctx Hbody run unset run_unset. split.
  - intros Hne.
    assert (Hrun : run = (Ok (true, set_user_id record
                                      (default (VStr EmptyString)
                                         (d !! token_field_name self))), s, [])).
    { subst run. destruct s as [c x]; cbn in Hctx; subst c.
      run_py. rewrite Hbody; cbn.
      rewrite bool_decide_eq_false_2 by done. cbn. by rewrite Hbody. }
    eexists. split; [exact Hrun|]. rewrite Hrun.
    by destruct (d !! token_field_name self).
  - intros ->. subst run run_unset unset.
    destruct s as [c x]; cbn in Hctx; subst c.
    run_py. rewrite Hbody; cbn.
    rewrite bool_decide_eq_true_2 by done. cbn.
    destruct (_get_token (request_headers rc)) as [t|e0]; cbn; [|done].
    destruct (truthy_token t); cbn; [|done].
    destruct (get_unverified_claims t) as [payload|[]]; cbn; try done.
    destruct (json_loads payload) as [[]|[]]; by cbn.
Qed.

(** C8: outside of a request the filter keeps the record and the record's
    [user_id] is the empty string; the other attributes of the record and
    the state are untouched and nothing is called. *)
Theorem filter_outside_request (self : UserIdFilter) (record : LogRecord) s :
  request_ctx s = None ->
  exists record',
    UserIdFilter_filter (Args := Args) (Kwargs := Kwargs) self record s
    = (Ok (true, record'), s, [])
    /\ rec_user_id record' = Some (VStr EmptyString)
    /\ rec_name record' = rec_name record
    /\ rec_levelno record' = rec_levelno record
    /\ rec_msg record' = rec_msg record.
Proof.
  intros Hctx. destruct s as [c x]; cbn in Hctx; subst c.
  eexists. split; [by run_py|]. apply set_user_id_fields.
Qed.

(** The filter reads the Flask state and never writes it. *)
Lemma filter_preserves_state (self : UserIdFilter) (record : LogRecord) s :
  final_state (UserIdFilter_filter (Args := Args) (Kwargs := Kwargs) self record s) = s.
Proof.
  destruct s as [[rc|] x]; run_py; [|done].
  destruct (truthy _); cbn.
  - destruct (g_token_body (g rc)) as [[]|]; by cbn.
  - destruct (_get_token _) as [t|e]; cbn; [|done].
    destruct (truthy_token t); cbn; [|done].
    destruct (get_unverified_claims t) as [payload|[]]; cbn; try done.
    destruct (json_loads payload) as [[]|[]]; by cbn.
Qed.

(** What the filter assigns, and what it calls, does not depend on the
    record it is given. *)
Lemma filter_independent_of_record (self : UserIdFilter) (r1 r2 : LogRecord) s :
  let run1 := UserIdFilter_filter (Args := Args) (Kwargs := Kwargs) self r1 s in
  let run2 := UserIdFilter_filter (Args := Args) (Kwargs := Kwargs) self r2 s in
  assigned_user_id (outcome run2) = assigned_user_id (outcome run1)
  /\ calls run2 = calls run1.
Proof.
  destruct s as [[rc|] x]; run_py; [|done].
  destruct (truthy _); cbn.
  - destruct (g_token_body (g rc)) as [[]|]; by cbn.
  - destruct (_get_token _) as [t|e]; cbn; [|done].
    destruct (truthy_token t); cbn; [|done].
    destruct (get_unverified_claims t) as [payload|[]]; cbn; try done.
    destruct (json_loads payload) as [[]|[]]; by cbn.
Qed.

(** C9: two invocations in a row, on any two records, in one request
    context.  The context is the same after each, and both leave the same
    [user_id] (or fail with the same exception). *)
Theorem filter_repeatable (self : UserIdFilter) (r1 r2 : LogRecord) s :
  let run1 := UserIdFilter_filter (Args := Args) (Kwargs := Kwargs) self r1 s in
  let run2 := UserIdFilter_filter (Args := Args) (Kwargs := Kwargs) self r2
                (final_state run1) in
  final_state run1 = s
  /\ final_state run2 = s
  /\ assigned_user_id (outcome run2) = assigned_user_id (outcome run1).
Proof.
  intros run1 run2. subst run1 run2.
  rewrite !filter_preserves_state. split; [done|]. split; [done|].
  apply filter_independent_of_record.
Qed.

(** The run of the filter on a request whose token splits into segments
    but whose payload [json.loads] refuses with an exception that is no
    JOSE error: the [except] clause does not apply. *)
Lemma filter_run_on_decode_failure (self : UserIdFilter) (record : LogRecord) s rc
    tok payload e :
  request_ctx s = Some rc ->
  truthy (default VNone (g_token_body (g rc))) = false ->
  _get_token (request_headers rc) = Ok (Some tok) ->
  tok <> EmptyString ->
  get_unverified_claims (Some tok) = Ok payload ->
  json_loads payload = Raise e ->
  (forall je, e <> JOSEError je) ->
  UserIdFilter_filter (Args := Args) (Kwargs := Kwargs) self record s
  = (Raise e, s,
     [EGetToken (request_headers rc); EUnverifiedClaims (Some tok); EJsonLoads payload]).
Proof.
  intros Hctx Hcached Htok Hne Hclaims Hloads Hother.
  destruct s as [c x]; cbn in Hctx; subst c.
  apply String.eqb_neq in Hne.
  run_py. rewrite Hcached; cbn. rewrite Htok; cbn. rewrite Hne; cbn.
  rewrite Hclaims; cbn. rewrite Hloads; cbn.
  destruct e as [je| | | | |]; try done. by destruct (Hother je).
Qed.

(** C5 fails on the code: a failure of [json.loads] is a failure of the
    unverified decode, and the filter raises it instead of assigning the
    empty identifier. *)
Theorem filter_surfaces_decode_failure (self : UserIdFilter) (record : LogRecord) s rc
    tok payload e :
  request_ctx s = Some rc ->
  truthy (default VNone (g_token_body (g rc))) = false ->
  _get_token (request_headers rc) = Ok (Some tok) ->
  tok <> EmptyString ->
  get_unverified_claims (Some tok) = Ok payload ->
  json_loads payload = Raise e ->
  (forall je, e <> JOSEError je) ->
  let run := UserIdFilter_filter (Args := Args) (Kwargs := Kwargs) self record s in
  outcome run = Raise e
  /\ assigned_user_id (outcome run) <> Ok (Some (VStr EmptyString)).
Proof.
  intros Hctx Hcached Htok Hne Hclaims Hloads Hother run. subst run.
  rewrite (filter_run_on_decode_failure self record s rc tok payload e) by done.
  by cbn.
Qed.

(** C7 fails on the code at the same requests: the filter returns no
    verdict and the record gets no [user_id]. *)
Theorem filter_returns_no_verdict (self : UserIdFilter) (record : LogRecord) s rc
    tok payload e :
  request_ctx s = Some rc ->
  truthy (default VNone (g_token_body (g rc))) = false ->
  _get_token (request_headers rc) = Ok (Some tok) ->
  tok <> EmptyString ->
  get_unverified_claims (Some tok) = Ok payload ->
  json_loads payload = Raise e ->
  (forall je, e <> JOSEError je) ->
  let run := UserIdFilter_filter (Args := Args) (Kwargs := Kwargs) self record s in
  assigned_user_id (outcome run) = Raise e
  /\ (forall (verdict : bool) (record' : LogRecord), outcome run <> Ok (verdict, record')).
Proof.
  intros Hctx Hcached Htok Hne Hclaims Hloads Hother run. subst run.
  rewrite (filter_run_on_decode_failure self record s rc tok payload e) by done.
  by cbn.
Qed.

(** Whenever the filter does return, it keeps the record and has set
    [user_id]. *)
Lemma filter_verdict_is_keep (self : UserIdFilter) (record : LogRecord) s
    (verdict : bool) (record' : LogRecord) :
  outcome (UserIdFilter_filter (Args := Args) (Kwargs := Kwargs) self record s)
    = Ok (verdict, record') ->
  verdict = true /\ is_Some (rec_user_id record').
Proof.
  destruct s as [[rc|] x]; run_py.
  - destruct (truthy _); cbn.
    + destruct (g_token_body (g rc)) as [[]|]; cbn; intros [= <- <-] || discriminate;
        by eauto.
    + destruct (_get_token _) as [t|e]; cbn; [|discriminate].
      destruct (truthy_token t); cbn; [|intros [= <- <-]; by eauto].
      destruct (get_unverified_claims t) as [payload|[]]; cbn;
        try discriminate; try (intros [= <- <-]; by eauto).
      destruct (json_loads payload) as [[]|[]]; cbn;
        try discriminate; intros [= <- <-]; by eauto.
  - intros [= <- <-]. by eauto.
Qed.

(** ** Further properties of the wrapper *)

(** X1: the handler is reached only through a successful validation.  If a
    run of the wrapper calls the handler, the request had a context, a
    non-empty token was extracted, the key set was retrieved and
    [validate] returned claims for that token and that key set. *)
Theorem wrapper_handler_needs_valid_token jwks_uri func func_args func_kwargs s :
  handler_calls (calls (wrapper jwks_uri func func_args func_kwargs s)) <> [] ->
  exists rc tok key ext' claims,
    request_ctx s = Some rc
    /\ _get_token (request_headers rc) = Ok (Some tok)
    /\ tok <> EmptyString
    /\ keys jwks_uri (ext s) = (Ok key, ext')
    /\ validate (Some tok) key ext' = Ok claims.
Proof.
  destruct s as [[rc|] x]; run_py; [|done].
  destruct (_get_token (request_headers rc)) as [[tok|]|e0] eqn:Htok; cbn;
    [| done | by destruct e0].
  destruct (String.eqb tok EmptyString) eqn:Hne; cbn; [done|].
  destruct (keys jwks_uri x) as [[key|e1] x'] eqn:Hkeys; cbn; [|by destruct e1].
  destruct (validate (Some tok) key x') as [claims|e2] eqn:Hval; cbn;
    [|by destruct e2].
  intros _. exists rc, tok, key, x', claims.
  apply String.eqb_neq in Hne. by repeat split.
Qed.

(** X2: one pass, in one order.  On every state the calls of a run are an
    initial part of: extract the token, fetch the keys, validate, call the
    handler.  Nothing is called twice, nothing is retried, and no step is
    made before the one in front of it. *)
Theorem wrapper_call_order jwks_uri func func_args func_kwargs s :
  exists headers t key,
    calls (wrapper jwks_uri func func_args func_kwargs s)
    `prefix_of` [EGetToken headers; EKeys jwks_uri; EValidate t key;
                 ECall func_args func_kwargs].
Proof.
  destruct s as [[rc|] x]; run_py.
  - destruct (_get_token (request_headers rc)) as [t|e0] eqn:Htok; cbn.
    + exists (request_headers rc), t.
      destruct (truthy_token t); cbn;
        [|exists VNone; by eexists].
      destruct (keys jwks_uri x) as [[key|e1] x'] eqn:Hkeys; cbn.
      * exists key.
        destruct (validate t key x') as [claims|e2] eqn:Hval; cbn.
        -- destruct (func _ _ _). by eexists.
        -- destruct e2; by eexists.
      * exists VNone. destruct e1; by eexists.
    + exists (request_headers rc), None, VNone. destruct e0; by eexists.
  - exists [], None, VNone. by eexists.
Qed.

(** X3: outside of a request the wrapper fails with [RuntimeError] when it
    resolves [flask.request]; the exception is no JOSE error, so it is not
    turned into [Unauthorized], and nothing is called. *)
Theorem wrapper_outside_request jwks_uri func func_args func_kwargs s :
  request_ctx s = None ->
  wrapper jwks_uri func func_args func_kwargs s
  = (Raise (RuntimeError "Working outside of request context."), s, []).
Proof.
  intros Hctx. destruct s as [c x]; cbn in Hctx; subst c. by run_py.
Qed.

(** X4: the token extraction is inside the [try] block.  When [_get_token]
    raises, a JOSE error becomes [Unauthorized] with its text as
    description and any other exception passes; either way the Flask state
    is untouched ([flask.g.token] is not assigned) and neither the keys nor
    the handler are reached. *)
Theorem wrapper_get_token_failure jwks_uri func func_args func_kwargs s rc e :
  request_ctx s = Some rc ->
  _get_token (request_headers rc) = Raise e ->
  wrapper jwks_uri func func_args func_kwargs s
  = (Raise (mapped_by_except e), s, [EGetToken (request_headers rc)]).
Proof.
  intros Hctx Htok. destruct s as [c x]; cbn in Hctx; subst c.
  run_py. rewrite Htok; cbn. by destruct e.
Qed.

(** X5: only JOSE errors are turned into [Unauthorized].  When [validate]
    raises an exception of another class, the wrapper raises that same
    exception; the handler is not called, [flask.g.token] is set and
    [flask.g.token_body] is not. *)
Theorem wrapper_validate_crash_passes jwks_uri func func_args func_kwargs s rc
    tok key ext' e :
  request_ctx s = Some rc ->
  _get_token (request_headers rc) = Ok (Some tok) ->
  tok <> EmptyString ->
  keys jwks_uri (ext s) = (Ok key, ext') ->
  validate (Some tok) key ext' = Raise e ->
  (forall je, e <> JOSEError je) ->
  wrapper jwks_uri func func_args func_kwargs s
  = (Raise e,
     with_g rc {| g_token := Some (Some tok);
                  g_token_body := g_token_body (g rc) |} ext',
     [EGetToken (request_headers rc); EKeys jwks_uri; EValidate (Some tok) key]).
Proof.
  intros Hctx Htok Hne Hkeys Hval Hother.
  destruct s as [c x]; cbn in Hctx, Hkeys; subst c.
  apply String.eqb_neq in Hne.
  run_py. rewrite Htok; cbn. rewrite Hne; cbn.
  rewrite Hkeys; cbn. rewrite Hval; cbn.
  destruct e as [je| | | | |]; try done. by destruct (Hother je).
Qed.

(** X6: [flask.g.token_body] is written by a successful validation only.
    A run that does not reach the handler, whatever stopped it and with
    whatever exception, leaves the request headers and
    [flask.g.token_body] as they were. *)
Theorem wrapper_unreached_handler_keeps_token_body
    jwks_uri func func_args func_kwargs s rc :
  request_ctx s = Some rc ->
  let run := wrapper jwks_uri func func_args func_kwargs s in
  handler_calls (calls run) = [] ->
  exists rc',
    request_ctx (final_state run) = Some rc'
    /\ request_headers rc' = request_headers rc
    /\ g_token_body (g rc') = g_token_body (g rc).
Proof.
  intros Hctx run. subst run.
  destruct s as [c x]; cbn in Hctx; subst c. run_py.
  destruct (_get_token (request_headers rc)) as [t|e0] eqn:Htok; cbn.
  - destruct (truthy_token t); cbn; [|by eauto].
    destruct (keys jwks_uri x) as [[key|e1] x'] eqn:Hkeys; cbn.
    + destruct (validate t key x') as [claims|e2] eqn:Hval; cbn.
      * by destruct (func _ _ _).
      * destruct e2; cbn; by eauto.
    + destruct e1; cbn; by eauto.
  - destruct e0; cbn; by eauto.
Qed.

(** ** Further properties of the filter *)

(** X7: the filter takes no authentication step.  On every state its calls
    are an initial part of: extract the token, split it without verifying,
    parse the payload.  It never fetches keys, never validates and never
    calls a handler. *)
Theorem filter_call_order (self : UserIdFilter) (record : LogRecord) s :
  exists headers t payload,
    calls (UserIdFilter_filter (Args := Args) (Kwargs := Kwargs) self record s)
    `prefix_of` [EGetToken headers; EUnverifiedClaims t; EJsonLoads payload].
Proof.
  destruct s as [[rc|] x]; run_py.
  - destruct (truthy _); cbn.
    + exists [], None, EmptyString.
      destruct (g_token_body (g rc)) as [[]|]; cbn; by eexists.
    + destruct (_get_token _) as [t|e0]; cbn.
      * exists (request_headers rc), t.
        destruct (truthy_token t); cbn; [|exists EmptyString; by eexists].
        destruct (get_unverified_claims t) as [payload|e1]; cbn.
        -- exists payload.
           destruct (json_loads payload) as [[]|[]]; cbn; by eexists.
        -- exists EmptyString. destruct e1; cbn; by eexists.
      * exists (request_headers rc), None, EmptyString. by eexists.
  - exists [], None, EmptyString. by eexists.
Qed.

(** The run of the filter on a request without usable stored claims whose
    token decodes to a JSON object. *)
Lemma filter_run_on_decoded_claims (self : UserIdFilter) (record : LogRecord) s rc
    tok payload (d : gmap string value) :
  request_ctx s = Some rc ->
  truthy (default VNone (g_token_body (g rc))) = false ->
  _get_token (request_headers rc) = Ok (Some tok) ->
  tok <> EmptyString ->
  get_unverified_claims (Some tok) = Ok payload ->
  json_loads payload = Ok (VDict d) ->
  UserIdFilter_filter (Args := Args) (Kwargs := Kwargs) self record s
  = (Ok (true, set_user_id record (default (VStr EmptyString)
                                     (d !! token_field_name self))),
     s,
     [EGetToken (request_headers rc); EUnverifiedClaims (Some tok); EJsonLoads payload]).
Proof.
  intros Hctx Hcached Htok Hne Hclaims Hloads.
  destruct s as [c x]; cbn in Hctx; subst c.
  apply String.eqb_neq in Hne.
  run_py. rewrite Hcached; cbn. rewrite Htok; cbn. rewrite Hne; cbn.
  rewrite Hclaims; cbn. by rewrite Hloads.
Qed.

(** X8: the unverified path.  On a request without usable stored claims
    whose token decodes to a JSON object, [user_id] is the object's value
    at the configured field, of whatever type, or the empty string when
    the object has no such field; the signature is not looked at and the
    decoded claims are not stored in [flask.g]. *)
Theorem filter_decodes_unverified_claims (self : UserIdFilter) (record : LogRecord) s rc
    tok payload (d : gmap string value) :
  request_ctx s = Some rc ->
  truthy (default VNone (g_token_body (g rc))) = false ->
  _get_token (request_headers rc) = Ok (Some tok) ->
  tok <> EmptyString ->
  get_unverified_claims (Some tok) = Ok payload ->
  json_loads payload = Ok (VDict d) ->
  let run := UserIdFilter_filter (Args := Args) (Kwargs := Kwargs) self record s in
  exists record',
    outcome run = Ok (true, record')
    /\ rec_user_id record'
       = Some (match d !! token_field_name self with
               | Some v => v
               | None => VStr EmptyString
               end)
    /\ rec_name record' = rec_name record
    /\ rec_levelno record' = rec_levelno record
    /\ rec_msg record' = rec_msg record
    /\ final_state run = s
    /\ calls run = [EGetToken (request_headers rc); EUnverifiedClaims (Some tok);
                    EJsonLoads payload].
Proof.
  intros Hctx Hcached Htok Hne Hclaims Hloads run. subst run.
  rewrite (filter_run_on_decoded_claims self record s rc tok payload d) by done.
  eexists. split; [reflexivity|].
  by destruct (d !! token_field_name self).
Qed.

(** X9: a token that [jws.get_unverified_claims] refuses with a JOSE error
    is swallowed: [user_id] is the empty string, the record is kept, and
    [json.loads] is not called. *)
Theorem filter_swallows_jose_error (self : UserIdFilter) (record : LogRecord) s rc
    tok je :
  request_ctx s = Some rc ->
  truthy (default VNone (g_token_body (g rc))) = false ->
  _get_token (request_headers rc) = Ok (Some tok) ->
  tok <> EmptyString ->
  get_unverified_claims (Some tok) = Raise (JOSEError je) ->
  exists record',
    UserIdFilter_filter (Args := Args) (Kwargs := Kwargs) self record s
    = (Ok (true, record'), s,
       [EGetToken (request_headers rc); EUnverifiedClaims (Some tok)])
    /\ rec_user_id record' = Some (VStr EmptyString)
    /\ rec_name record' = rec_name record
    /\ rec_levelno record' = rec_levelno record
    /\ rec_msg record' = rec_msg record.
Proof.
  intros Hctx Hcached Htok Hne Hclaims.
  destruct s as [c x]; cbn in Hctx; subst c.
  apply String.eqb_neq in Hne.
  eexists. split; [|apply set_user_id_fields].
  run_py. rewrite Hcached; cbn. rewrite Htok; cbn. rewrite Hne; cbn.
  by rewrite Hclaims.
Qed.

(** X10: a request without a token and without usable stored claims gets
    the empty [user_id]; nothing is decoded. *)
Theorem filter_without_token (self : UserIdFilter) (record : LogRecord) s rc t :
  request_ctx s = Some rc ->
  truthy (default VNone (g_token_body (g rc))) = false ->
  _get_token (request_headers rc) = Ok t ->
  t = None \/ t = Some EmptyString ->
  exists record',
    UserIdFilter_filter (Args := Args) (Kwargs := Kwargs) self record s
    = (Ok (true, record'), s, [EGetToken (request_headers rc)])
    /\ rec_user_id record' = Some (VStr EmptyString)
    /\ rec_name record' = rec_name record
    /\ rec_levelno record' = rec_levelno record
    /\ rec_msg record' = rec_msg record.
Proof.
  intros Hctx Hcached Htok Hfalsy.
  destruct s as [c x]; cbn in Hctx; subst c.
  apply truthy_token_false in Hfalsy.
  eexists. split; [|apply set_user_id_fields].
  run_py. rewrite Hcached; cbn. rewrite Htok; cbn. by rewrite Hfalsy.
Qed.

(** X11: claims that are no mapping.  When the payload of the token is a
    JSON document other than an object (an array, a string, a number,
    [null]), [_extract_token_body] returns it as it is and the filter
    fails with [AttributeError] at [.get]. *)
Theorem filter_non_mapping_claims_raise (self : UserIdFilter) (record : LogRecord) s rc
    tok payload v :
  request_ctx s = Some rc ->
  truthy (default VNone (g_token_body (g rc))) = false ->
  _get_token (request_headers rc) = Ok (Some tok) ->
  tok <> EmptyString ->
  get_unverified_claims (Some tok) = Ok payload ->
  json_loads payload = Ok v ->
  (forall d, v <> VDict d) ->
  UserIdFilter_filter (Args := Args) (Kwargs := Kwargs) self record s
  = (Raise (AttributeError "get"), s,
     [EGetToken (request_headers rc); EUnverifiedClaims (Some tok); EJsonLoads payload]).
Proof.
  intros Hctx Hcached Htok Hne Hclaims Hloads Hnodict.
  destruct s as [c x]; cbn in Hctx; subst c.
  apply String.eqb_neq in Hne.
  run_py. rewrite Hcached; cbn. rewrite Htok; cbn. rewrite Hne; cbn.
  rewrite Hclaims; cbn. rewrite Hloads; cbn.
  destruct v as [| | | | |d]; try done. by destruct (Hnodict d).
Qed.

(** X12: in the filter the token extraction is outside the [try] block.
    An exception of [_get_token], a JOSE error included, leaves the filter
    as it is. *)
Theorem filter_get_token_failure_surfaces (self : UserIdFilter) (record : LogRecord) s rc e :
  request_ctx s = Some rc ->
  truthy (default VNone (g_token_body (g rc))) = false ->
  _get_token (request_headers rc) = Raise e ->
  UserIdFilter_filter (Args := Args) (Kwargs := Kwargs) self record s
  = (Raise e, s, [EGetToken (request_headers rc)]).
Proof.
  intros Hctx Hcached Htok.
  destruct s as [c x]; cbn in Hctx; subst c.
  run_py. rewrite Hcached; cbn. by rewrite Htok.
Qed.


End Properties.

(** * The concrete deployment, run *)

(** C1 at [token_user42]: the handler runs once and sees its claims. *)
Lemma wrapper_valid_token_witness :
  let run := sample_wrapper sample_jwks_uri [] ∅ (request_with (bearer token_user42)) in
  run = (Ok (VDict claims_user42),
         with_g {| request_headers := bearer token_user42; g := empty_g |}
           {| g_token := Some (Some token_user42);
              g_token_body := Some (VDict claims_user42) |} 1,
         [EGetToken (bearer token_user42); EKeys sample_jwks_uri;
          EValidate (Some token_user42) sample_jwks; ECall [] ∅])
  /\ handler_calls (calls run) = [([], ∅)].
Proof.
  apply (wrapper_valid_token (collaborators := sample_collaborators)
           sample_jwks_uri sample_handler [] ∅ (request_with (bearer token_user42))
           {| request_headers := bearer token_user42; g := empty_g |}
           token_user42 sample_jwks 1 (VDict claims_user42));
    [reflexivity | reflexivity | discriminate | reflexivity | reflexivity].
Defined.

(** C2 at a request without an authorization header. *)
Lemma wrapper_no_token_witness :
  let run := sample_wrapper sample_jwks_uri [] ∅ (request_with [("Host", "api.example")]) in
  run = (Raise (Unauthorized None None),
         with_g {| request_headers := [("Host", "api.example")]; g := empty_g |}
           {| g_token := Some None; g_token_body := None |} 0,
         [EGetToken [("Host", "api.example")]])
  /\ handler_calls (calls run) = [].
Proof.
  apply (wrapper_no_token (collaborators := sample_collaborators)
           sample_jwks_uri sample_handler [] ∅ (request_with [("Host", "api.example")])
           {| request_headers := [("Host", "api.example")]; g := empty_g |} None);
    [reflexivity | reflexivity | left; reflexivity].
Defined.

(** C3 at [token_forged]. *)
Lemma wrapper_rejected_token_witness :
  let run := sample_wrapper sample_jwks_uri [] ∅ (request_with (bearer token_forged)) in
  run = (Raise (Unauthorized (Some "Signature verification failed.")
                  (Some {| jose_class := "JWTError";
                           jose_message := "Signature verification failed." |})),
         with_g {| request_headers := bearer token_forged; g := empty_g |}
           {| g_token := Some (Some token_forged); g_token_body := None |} 1,
         [EGetToken (bearer token_forged); EKeys sample_jwks_uri;
          EValidate (Some token_forged) sample_jwks])
  /\ handler_calls (calls run) = [].
Proof.
  apply (wrapper_rejected_token (collaborators := sample_collaborators)
           sample_jwks_uri sample_handler [] ∅ (request_with (bearer token_forged))
           {| request_headers := bearer token_forged; g := empty_g |}
           token_forged sample_jwks 1
           {| jose_class := "JWTError";
              jose_message := "Signature verification failed." |});
    [reflexivity | reflexivity | discriminate | reflexivity | reflexivity].
Defined.

(** C4 as stated fails: the [except] clause names [JOSEError] only.  When
    the key retrieval fails with an exception of another class, here a
    [ValueError], the wrapper raises that exception, which is no
    [Unauthorized]. *)
Lemma wrapper_keys_failure_not_unauthorized :
  let e := ValueError "Expecting value: line 1 column 1 (char 0)" in
  let s := request_with (bearer token_user42) in
  let run := wrapper (collaborators := failing_keys_collaborators e)
               sample_jwks_uri sample_handler [] ∅ s in
  keys (Collaborators := failing_keys_collaborators e) sample_jwks_uri (ext s)
    = (Raise e, 1)
  /\ outcome run = Raise e
  /\ is_unauthorized (outcome run) = false
  /\ handler_calls (calls run) = [].
Proof. by vm_compute. Qed.

(** C4 as the code has it, at a JWKS host that cannot be reached: the key
    retrieval raises a JOSE error and the wrapper answers [Unauthorized]. *)
Lemma wrapper_keys_failure_witness :
  let run := sample_wrapper unreachable_jwks_uri [] ∅ (request_with (bearer token_user42)) in
  let je := {| jose_class := "JOSEError";
               jose_message := "ConnectionError error while retrieving keys" |} in
  run = (Raise (mapped_by_except (JOSEError je)),
         with_g {| request_headers := bearer token_user42; g := empty_g |}
           {| g_token := Some (Some token_user42); g_token_body := None |} 1,
         [EGetToken (bearer token_user42); EKeys unreachable_jwks_uri])
  /\ handler_calls (calls run) = []
  /\ (forall je', JOSEError je = JOSEError je' ->
       outcome run = Raise (Unauthorized (Some (str je')) (Some je')))
  /\ ((forall je', JOSEError je <> JOSEError je') -> outcome run = Raise (JOSEError je)).
Proof.
  apply (wrapper_keys_failure (collaborators := sample_collaborators)
           unreachable_jwks_uri sample_handler [] ∅ (request_with (bearer token_user42))
           {| request_headers := bearer token_user42; g := empty_g |}
           token_user42 1
           (JOSEError {| jose_class := "JOSEError";
                         jose_message := "ConnectionError error while retrieving keys" |}));
    [reflexivity | reflexivity | discriminate | reflexivity].
Defined.

(** C10 at [token_forged]: rejected, and [flask.g.token] is set. *)
Lemma wrapper_rejection_keeps_token_witness :
  let run := sample_wrapper sample_jwks_uri [] ∅ (request_with (bearer token_forged)) in
  exists ext',
    final_state run
    = with_g {| request_headers := bearer token_forged; g := empty_g |}
        {| g_token := Some (Some token_forged); g_token_body := None |} ext'
    /\ (g_token_body empty_g = None ->
        forall rc', request_ctx (final_state run) = Some rc' ->
                    g_token (g rc') = Some (Some token_forged)
                    /\ g_token_body (g rc') = None).
Proof.
  apply (wrapper_rejection_keeps_token (collaborators := sample_collaborators)
           sample_jwks_uri sample_handler [] ∅ (request_with (bearer token_forged))
           {| request_headers := bearer token_forged; g := empty_g |}
           (Some token_forged));
    [reflexivity | reflexivity | reflexivity | reflexivity].
Defined.

(** C6 as stated fails: the decorator validated [token_empty_claims] and
    stored its claims, the empty mapping; the filter finds them false and
    decodes the token again. *)
Lemma filter_decodes_again_on_empty_claims :
  let s := authenticated_request token_empty_claims in
  let run := sample_filter sub_filter sample_record s in
  request_ctx s
    = Some {| request_headers := bearer token_empty_claims;
              g := {| g_token := Some (Some token_empty_claims);
                      g_token_body := Some (VDict ∅) |} |}
  /\ calls run = [EGetToken (bearer token_empty_claims);
                  EUnverifiedClaims (Some token_empty_claims);
                  EJsonLoads "{}"]
  /\ unverified_decodes (calls run) <> 0.
Proof. by vm_compute. Qed.

(** C6 as the code has it, after the decorator accepted [token_user42]. *)
Lemma filter_reuses_stored_claims_witness :
  let s := authenticated_request token_user42 in
  let run := sample_filter sub_filter sample_record s in
  exists record',
    run = (Ok (true, record'), s, [])
    /\ rec_user_id record' = Some (VStr "user-42")
    /\ rec_name record' = rec_name sample_record
    /\ rec_levelno record' = rec_levelno sample_record
    /\ rec_msg record' = rec_msg sample_record
    /\ unverified_decodes (calls run) = 0.
Proof.
  apply (proj1 (filter_reuses_stored_claims (collaborators := sample_collaborators)
                  sub_filter sample_record (authenticated_request token_user42)
                  {| request_headers := bearer token_user42;
                     g := {| g_token := Some (Some token_user42);
                             g_token_body := Some (VDict claims_user42) |} |}
                  claims_user42 eq_refl eq_refl)).
  by vm_compute.
Defined.

(** C8 before any request. *)
Lemma filter_outside_request_witness :
  exists record',
    sample_filter sub_filter sample_record no_request
    = (Ok (true, record'), no_request, [])
    /\ rec_user_id record' = Some (VStr EmptyString)
    /\ rec_name record' = rec_name sample_record
    /\ rec_levelno record' = rec_levelno sample_record
    /\ rec_msg record' = rec_msg sample_record.
Proof.
  apply (filter_outside_request (collaborators := sample_collaborators)
           sub_filter sample_record no_request); reflexivity.
Defined.

(** C5 at [token_not_json] on an endpoint without the decorator: the
    logging call raises [ValueError]. *)
Lemma filter_surfaces_decode_failure_witness :
  let run := sample_filter sub_filter sample_record (request_with (bearer token_not_json)) in
  outcome run = Raise (ValueError "Expecting value: line 1 column 1 (char 0)")
  /\ assigned_user_id (outcome run) <> Ok (Some (VStr EmptyString)).
Proof.
  apply (filter_surfaces_decode_failure (collaborators := sample_collaborators)
           sub_filter sample_record (request_with (bearer token_not_json))
           {| request_headers := bearer token_not_json; g := empty_g |}
           token_not_json "x"
           (ValueError "Expecting value: line 1 column 1 (char 0)"));
    [reflexivity | reflexivity | reflexivity | discriminate | reflexivity
    | reflexivity | discriminate].
Defined.

(** C7 at the same request. *)
Lemma filter_returns_no_verdict_witness :
  let run := sample_filter sub_filter sample_record (request_with (bearer token_not_json)) in
  assigned_user_id (outcome run)
    = Raise (ValueError "Expecting value: line 1 column 1 (char 0)")
  /\ (forall (verdict : bool) (record' : LogRecord), outcome run <> Ok (verdict, record')).
Proof.
  apply (filter_returns_no_verdict (collaborators := sample_collaborators)
           sub_filter sample_record (request_with (bearer token_not_json))
           {| request_headers := bearer token_not_json; g := empty_g |}
           token_not_json "x"
           (ValueError "Expecting value: line 1 column 1 (char 0)"));
    [reflexivity | reflexivity | reflexivity | discriminate | reflexivity
    | reflexivity | discriminate].
Defined.

(** The example of the specification: claim field [sub], claims with
    [sub = user-42] and a signature that verifies.  The handler runs, and
    a record logged during the request carries [user_id = user-42]. *)
Example user42_is_logged :
  let run := sample_wrapper sample_jwks_uri [] ∅ (request_with (bearer token_user42)) in
  handler_calls (calls run) = [([], ∅)]
  /\ assigned_user_id (outcome (sample_filter sub_filter sample_record (final_state run)))
     = Ok (Some (VStr "user-42")).
Proof. by vm_compute. Qed.

(** * setup.py: the requirements of the group [testing] *)

Lemma dict_getitem_setitem_eq (key : string) (v v0 : list string)
    (d : list (string * list string)) :
  dict_getitem key d = Some v0 ->
  dict_getitem key (dict_setitem key v d) = Some v.
Proof.
  induction d as [|[k w] rest IH]; cbn; [done|].
  destruct (String.eqb k key) eqn:Hk; cbn; rewrite Hk; [done|]. exact IH.
Qed.

Lemma dict_getitem_setitem_ne (key other : string) (v : list string)
    (d : list (string * list string)) :
  other <> key ->
  dict_getitem other (dict_setitem key v d) = dict_getitem other d.
Proof.
  intros Hne. induction d as [|[k w] rest IH]; cbn; [done|].
  destruct (String.eqb k key) eqn:Hk; cbn.
  - apply String.eqb_eq in Hk. subst k.
    assert (Hko : String.eqb key other = false) by (apply String.eqb_neq; congruence).
    by rewrite Hko.
  - by rewrite IH.
Qed.

Lemma dict_setitem_keys (key : string) (v : list string)
    (d : list (string * list string)) :
  (dict_setitem key v d).*1 = d.*1.
Proof.
  induction d as [|[k w] rest IH]; cbn; [done|].
  destruct (String.eqb k key); cbn; [done|]. by rewrite IH.
Qed.

Lemma extras_of_other_groups_elem (extra_name : string) (extra_list : list string)
    (extra : string) (d : list (string * list string)) :
  dict_getitem extra_name d = Some extra_list ->
  extra_name <> "testing" ->
  extra ∈ extra_list ->
  extra ∈ extras_of_other_groups d.
Proof.
  intros Hget Hne Hin. induction d as [|[k w] rest IH]; cbn in *; [done|].
  apply elem_of_app.
  destruct (String.eqb k extra_name) eqn:Hk.
  - apply String.eqb_eq in Hk. subst k. injection Hget as ->.
    left. apply String.eqb_neq in Hne. by rewrite Hne.
  - right. by apply IH.
Qed.

(** X14: after the statement that extends [testing], the group holds its
    own requirements first and, behind them, every requirement of every
    group of the dictionary. *)
Theorem testing_collects_every_extra (d : list (string * list string))
    (testing : list string) :
  dict_getitem "testing" d = Some testing ->
  exists d' all,
    add_all_extras_to_testing d = Ok d'
    /\ dict_getitem "testing" d' = Some all
    /\ testing `prefix_of` all
    /\ (forall extra_name extra_list extra,
         dict_getitem extra_name d = Some extra_list ->
         extra ∈ extra_list -> extra ∈ all).
Proof.
  intros Hget.
  exists (dict_setitem "testing" (testing ++ extras_of_other_groups d) d),
         (testing ++ extras_of_other_groups d).
  split; [|split; [|split]].
  - unfold add_all_extras_to_testing. by rewrite Hget.
  - by apply (dict_getitem_setitem_eq _ _ testing).
  - by apply prefix_app_r.
  - intros extra_name extra_list extra Hother Hin. apply elem_of_app.
    destruct (decide (extra_name = "testing")) as [->|Hne].
    + left. congruence.
    + right. by apply (extras_of_other_groups_elem extra_name extra_list).
Qed.

(** X15: what the statement does to the rest.  On a dictionary without a
    group [testing] it raises [KeyError].  On a dictionary with one it
    succeeds, the keys keep their order and every other group keeps its
    list. *)
Theorem testing_leaves_other_extras (d : list (string * list string)) :
  match dict_getitem "testing" d with
  | None => add_all_extras_to_testing d = Raise (Exception "KeyError" "testing")
  | Some _ =>
      exists d',
        add_all_extras_to_testing d = Ok d'
        /\ d'.*1 = d.*1
        /\ (forall extra_name, extra_name <> "testing" ->
              dict_getitem extra_name d' = dict_getitem extra_name d)
  end.
Proof.
  unfold add_all_extras_to_testing.
  destruct (dict_getitem "testing" d) as [testing|] eqn:Hget; [|done].
  eexists. split; [reflexivity|]. split.
  - apply dict_setitem_keys.
  - intros extra_name Hne. by apply dict_getitem_setitem_ne.
Qed.

(** X14 at the dictionary of [setup.py]. *)
Lemma testing_collects_every_extra_witness :
  exists d' all,
    add_all_extras_to_testing extra_requirements = Ok d'
    /\ dict_getitem "testing" d' = Some all
    /\ ["pycommon-test==4.9.0"] `prefix_of` all
    /\ (forall extra_name extra_list extra,
         dict_getitem extra_name extra_requirements = Some extra_list ->
         extra ∈ extra_list -> extra ∈ all).
Proof.
  apply (testing_collects_every_extra extra_requirements ["pycommon-test==4.9.0"]).
  reflexivity.
Defined.

(** The dictionary of [setup.py] after the statement. *)
Example extra_requirements_after :
  add_all_extras_to_testing extra_requirements
  = Ok [("testing", ["pycommon-test==4.9.0"; "oauth2helper==1.4.0"; "pysmb==1.1.27";
                     "redis==2.10.6"; "celery[redis]==4.2.1"; "requests==2.21.0"]);
        ("authentication", ["oauth2helper==1.4.0"]);
        ("windows", ["pysmb==1.1.27"]);
        ("celery", ["redis==2.10.6"; "celery[redis]==4.2.1"]);
        ("rest", ["requests==2.21.0"])].
Proof. reflexivity. Qed.

(** Without a group [testing] the statement raises [KeyError]. *)
Example extra_requirements_without_testing :
  add_all_extras_to_testing [("rest", ["requests==2.21.0"])]
  = Raise (Exception "KeyError" "testing").
Proof. reflexivity. Qed.

(** * The further deployments, run *)

(** X1 at [token_user42]: the handler was called, so the token was valid. *)
Lemma wrapper_handler_needs_valid_token_witness :
  exists rc tok key ext' claims,
    request_ctx (request_with (bearer token_user42)) = Some rc
    /\ sample_get_token (request_headers rc) = Ok (Some tok)
    /\ tok <> EmptyString
    /\ sample_keys sample_jwks_uri 0 = (Ok key, ext')
    /\ sample_validate (Some tok) key ext' = Ok claims.
Proof.
  apply (wrapper_handler_needs_valid_token (collaborators := sample_collaborators)
           sample_jwks_uri sample_handler [] ∅ (request_with (bearer token_user42))).
  by vm_compute.
Defined.

(** X3 before any request. *)
Lemma wrapper_outside_request_witness :
  sample_wrapper sample_jwks_uri [] ∅ no_request
  = (Raise (RuntimeError "Working outside of request context."), no_request, []).
Proof.
  apply (wrapper_outside_request (collaborators := sample_collaborators)
           sample_jwks_uri sample_handler [] ∅ no_request).
  reflexivity.
Defined.

(** X4 where the extraction refuses the header with a JOSE error. *)
Lemma wrapper_get_token_failure_witness :
  let je := {| jose_class := "JWTError"; jose_message := "Invalid header string" |} in
  wrapper (collaborators := refusing_collaborators (JOSEError je))
    sample_jwks_uri sample_handler [] ∅ (request_with (bearer token_user42))
  = (Raise (Unauthorized (Some "Invalid header string") (Some je)),
     request_with (bearer token_user42),
     [EGetToken (bearer token_user42)]).
Proof.
  apply (wrapper_get_token_failure
           (collaborators := refusing_collaborators
              (JOSEError {| jose_class := "JWTError";
                            jose_message := "Invalid header string" |}))
           sample_jwks_uri sample_handler [] ∅ (request_with (bearer token_user42))
           {| request_headers := bearer token_user42; g := empty_g |}
           (JOSEError {| jose_class := "JWTError";
                         jose_message := "Invalid header string" |}));
    reflexivity.
Defined.

(** X5 where validation fails with a [TypeError]. *)
Lemma wrapper_validate_crash_passes_witness :
  let e := Exception "TypeError" "object of type NoneType has no len()" in
  wrapper (collaborators := crashing_collaborators e)
    sample_jwks_uri sample_handler [] ∅ (request_with (bearer token_user42))
  = (Raise e,
     with_g {| request_headers := bearer token_user42; g := empty_g |}
       {| g_token := Some (Some token_user42); g_token_body := None |} 1,
     [EGetToken (bearer token_user42); EKeys sample_jwks_uri;
      EValidate (Some token_user42) sample_jwks]).
Proof.
  apply (wrapper_validate_crash_passes
           (collaborators := crashing_collaborators
              (Exception "TypeError" "object of type NoneType has no len()"))
           sample_jwks_uri sample_handler [] ∅ (request_with (bearer token_user42))
           {| request_headers := bearer token_user42; g := empty_g |}
           token_user42 sample_jwks 1
           (Exception "TypeError" "object of type NoneType has no len()"));
    [reflexivity | reflexivity | discriminate | reflexivity | reflexivity
    | discriminate].
Defined.

(** X6 at [token_forged]. *)
Lemma wrapper_unreached_handler_keeps_token_body_witness :
  let run := sample_wrapper sample_jwks_uri [] ∅ (request_with (bearer token_forged)) in
  exists rc',
    request_ctx (final_state run) = Some rc'
    /\ request_headers rc' = bearer token_forged
    /\ g_token_body (g rc') = None.
Proof.
  apply (wrapper_unreached_handler_keeps_token_body
           (collaborators := sample_collaborators)
           sample_jwks_uri sample_handler [] ∅ (request_with (bearer token_forged))
           {| request_headers := bearer token_forged; g := empty_g |});
    reflexivity.
Defined.

(** X8 at [token_user42] on an endpoint without the decorator. *)
Lemma filter_decodes_unverified_claims_witness :
  let s := request_with (bearer token_user42) in
  let run := sample_filter sub_filter sample_record s in
  exists record',
    outcome run = Ok (true, record')
    /\ rec_user_id record' = Some (VStr "user-42")
    /\ rec_name record' = rec_name sample_record
    /\ rec_levelno record' = rec_levelno sample_record
    /\ rec_msg record' = rec_msg sample_record
    /\ final_state run = s
    /\ calls run = [EGetToken (bearer token_user42);
                    EUnverifiedClaims (Some token_user42);
                    EJsonLoads payload_user42].
Proof.
  apply (filter_decodes_unverified_claims (collaborators := sample_collaborators)
           sub_filter sample_record (request_with (bearer token_user42))
           {| request_headers := bearer token_user42; g := empty_g |}
           token_user42 payload_user42 claims_user42);
    [reflexivity | reflexivity | reflexivity | discriminate | reflexivity
    | reflexivity].
Defined.

(** X9 at a token without segments. *)
Lemma filter_swallows_jose_error_witness :
  exists record',
    sample_filter sub_filter sample_record (request_with (bearer "garbage"))
    = (Ok (true, record'),
       request_with (bearer "garbage"),
       [EGetToken (bearer "garbage"); EUnverifiedClaims (Some "garbage")])
    /\ rec_user_id record' = Some (VStr EmptyString)
    /\ rec_name record' = rec_name sample_record
    /\ rec_levelno record' = rec_levelno sample_record
    /\ rec_msg record' = rec_msg sample_record.
Proof.
  apply (filter_swallows_jose_error (collaborators := sample_collaborators)
           sub_filter sample_record (request_with (bearer "garbage"))
           {| request_headers := bearer "garbage"; g := empty_g |}
           "garbage"
           {| jose_class := "JWSError"; jose_message := "Not enough segments" |});
    [reflexivity | reflexivity | reflexivity | discriminate | reflexivity].
Defined.

(** X10 at a request without an authorization header. *)
Lemma filter_without_token_witness :
  exists record',
    sample_filter sub_filter sample_record (request_with [("Host", "api.example")])
    = (Ok (true, record'),
       request_with [("Host", "api.example")],
       [EGetToken [("Host", "api.example")]])
    /\ rec_user_id record' = Some (VStr EmptyString)
    /\ rec_name record' = rec_name sample_record
    /\ rec_levelno record' = rec_levelno sample_record
    /\ rec_msg record' = rec_msg sample_record.
Proof.
  apply (filter_without_token (collaborators := sample_collaborators)
           sub_filter sample_record (request_with [("Host", "api.example")])
           {| request_headers := [("Host", "api.example")]; g := empty_g |} None);
    [reflexivity | reflexivity | reflexivity | left; reflexivity].
Defined.

(** X11 at [token_list_claims]. *)
Lemma filter_non_mapping_claims_raise_witness :
  UserIdFilter_filter (Args := sample_args) (Kwargs := sample_kwargs)
    (collaborators := array_collaborators)
    sub_filter sample_record (request_with (bearer token_list_claims))
  = (Raise (AttributeError "get"),
     request_with (bearer token_list_claims),
     [EGetToken (bearer token_list_claims);
      EUnverifiedClaims (Some token_list_claims);
      EJsonLoads "[]"]).
Proof.
  apply (filter_non_mapping_claims_raise (collaborators := array_collaborators)
           sub_filter sample_record (request_with (bearer token_list_claims))
           {| request_headers := bearer token_list_claims; g := empty_g |}
           token_list_claims "[]" (VList []));
    [reflexivity | reflexivity | reflexivity | discriminate | reflexivity
    | reflexivity | discriminate].
Defined.

(** X12 where the extraction refuses the header with a JOSE error. *)
Lemma filter_get_token_failure_surfaces_witness :
  let e := JOSEError {| jose_class := "JWTError";
                        jose_message := "Invalid header string" |} in
  UserIdFilter_filter (Args := sample_args) (Kwargs := sample_kwargs)
    (collaborators := refusing_collaborators e)
    sub_filter sample_record (request_with (bearer token_user42))
  = (Raise e, request_with (bearer token_user42), [EGetToken (bearer token_user42)]).
Proof.
  apply (filter_get_token_failure_surfaces
           (collaborators := refusing_collaborators
              (JOSEError {| jose_class := "JWTError";
                            jose_message := "Invalid header string" |}))
           sub_filter sample_record (request_with (bearer token_user42))
           {| request_headers := bearer token_user42; g := empty_g |});
    reflexivity.
Defined.

